(** * isa: execution-state flags of a Python module

    A shallow embedding of [isa.py]: the frame locator [get_last_module],
    the decorator [_default_globals], the five predicates on a scope
    mapping, the metaclass [State] with its truthiness and its overloaded
    [|] and [&], and the five flag classes.

    Python objects that the program only compares by identity and reads
    (the [dict]s behind [f_locals] and [f_globals]) carry an identity next
    to their bindings; [is] compares identities.  Code that can raise runs
    in the error monad [result]. *)

From Stdlib Require Import ZArith Bool List.
From stdpp Require Import gmap strings list fin_maps.

Set Warnings "-register-all".
Open Scope string_scope.

(** ** Python values *)

Module Py.

(** The builtin data values a scope binding or a plain operand can hold.
    Objects with a user-defined [__bool__] or [__eq__] are outside this
    universe. *)
Inductive value : Type :=
| VNone
| VBool (b : bool)
| VInt (n : Z)
| VStr (s : string)
| VList (l : list value).

(** [bool(v)] *)
Definition truthy (v : value) : bool :=
  match v with
  | VNone => false
  | VBool b => b
  | VInt n => negb (n =? 0)%Z
  | VStr s => negb (bool_decide (s = ""))
  | VList l => negb (bool_decide (l = []))
  end.

(** [v == s] for a [str] literal [s]: only an equal [str] compares equal. *)
Definition eq_str (v : value) (s : string) : value :=
  match v with
  | VStr t => VBool (bool_decide (t = s))
  | _ => VBool false
  end.

(** A [dict] object: its identity and its bindings. *)
Record dict : Type := Dict { dict_id : positive; dict_items : gmap string value }.

(** [d.get(k)]: the binding, or [None] when [k] is absent. *)
Definition get (d : dict) (k : string) : value :=
  match dict_items d !! k with
  | Some v => v
  | None => VNone
  end.

(** [a is b] *)
Definition is_ (a b : dict) : bool := bool_decide (dict_id a = dict_id b).

Inductive exn : Type := AttributeError | TypeError.

Inductive result (A : Type) : Type :=
| Ok (a : A)
| Raise (e : exn).
Arguments Ok {A} a.
Arguments Raise {A} e.

#[global] Instance result_ret : MRet result := fun A a => Ok a.
#[global] Instance result_bind : MBind result := fun A B k m =>
  match m with
  | Ok a => k a
  | Raise e => Raise e
  end.

(** A frame of the call stack, as [inspect] shows it. *)
Record frame : Type := Frame { f_locals : dict; f_globals : dict }.

(** The call stack, innermost frame first. *)
Abbreviation stack := (list frame).

End Py.

Import Py.

(** ** Concrete scopes and stacks *)

Module Example.

(** The globals of [isa] itself, once imported. *)
Definition isa_module : dict :=
  Dict 1 (<["__name__" := VStr "isa"]> (<["__file__" := VStr "isa.py"]> ∅)).

(** The globals of a module [app] that was imported from [app.py]. *)
Definition importer : dict :=
  Dict 2 (<["__name__" := VStr "app"]> (<["__file__" := VStr "app.py"]> ∅)).

(** The top level of [app] is running: locals and globals are one object. *)
Definition importer_stack : stack := [Frame importer importer].

(** A scope with neither binding. *)
Definition bare : dict := Dict 3 ∅.

End Example.

(** ** The module *)

Section Isa.

(** The globals of the [isa] module itself: every function defined in the
    module runs in a frame whose [f_globals] is this object. *)
Variable isa_globals : dict.

Definition frame_top (fr : frame) : positive :=
  Pos.max (dict_id (f_locals fr)) (dict_id (f_globals fr)).

(** An identity no object of the stack has yet. *)
Definition fresh_id (st : stack) : positive :=
  Pos.succ (foldr (fun fr m => Pos.max (frame_top fr) m) (dict_id isa_globals) st).

(** Calling a function of the module pushes a frame with a new locals
    object (whose contents nothing here reads). *)
Definition enter (st : stack) : stack :=
  Frame (Dict (fresh_id st) ∅) isa_globals :: st.

(** The [for] loop of [get_last_module] over [getouterframes(...)]. *)
Fixpoint walk (frames : list frame) : option frame :=
  match frames with
  | [] => None
  | fr :: outer =>
      if is_ (f_locals fr) (f_globals fr) then Some fr else walk outer
  end.

(** [get_last_module()], called from a frame on top of [st]; [None] is
    Python's implicit return when the loop ends. *)
Definition get_last_module (st : stack) : option frame :=
  let frames := enter st in
  walk frames.

(** [frame.f_globals] on the result of [get_last_module()]. *)
Definition located_globals (st : stack) : result dict :=
  match get_last_module st with
  | Some fr => Ok (f_globals fr)
  | None => Raise AttributeError
  end.

(** The decorator: [default(globals=None)]. *)
Definition _default_globals (callable : stack -> dict -> result value)
    (st : stack) (globals : option dict) : result value :=
  let here := enter st in
  match globals with
  | None => g ← located_globals here; callable here g
  | Some g => callable here g
  end.

Definition is_main : stack -> option dict -> result value :=
  _default_globals (fun st globals =>
    Ok (eq_str (get globals "__name__") "__main__")).

Definition is_file : stack -> option dict -> result value :=
  _default_globals (fun st globals =>
    Ok (VBool (truthy (get globals "__file__")))).

(** [is_main(globals) and not is_file(globals)] *)
Definition is_interactive : stack -> option dict -> result value :=
  _default_globals (fun st globals =>
    let here := enter st in
    a ← is_main here (Some globals);
    if truthy a
    then b ← is_file here (Some globals); Ok (VBool (negb (truthy b)))
    else Ok a).

(** [not is_main(globals) and is_file(globals)] *)
Definition is_module : stack -> option dict -> result value :=
  _default_globals (fun st globals =>
    let here := enter st in
    a ← is_main here (Some globals);
    if truthy (VBool (negb (truthy a)))
    then is_file here (Some globals)
    else Ok (VBool (negb (truthy a)))).

(** [is_main(globals) and is_file(globals)] *)
Definition is_script : stack -> option dict -> result value :=
  _default_globals (fun st globals =>
    let here := enter st in
    a ← is_main here (Some globals);
    if truthy a then is_file here (Some globals) else Ok a).

(** The five classes whose metaclass is [State]. *)
Inductive flag : Type := MAIN | FILE | INTERACTIVE | SCRIPT | MODULE.

(** [cls.predicate(globals)] *)
Definition predicate (cls : flag) (st : stack) (globals : dict) : result value :=
  let here := enter st in
  match cls with
  | MAIN => is_main here (Some globals)
  | FILE => b ← is_file here (Some globals); Ok (VBool (truthy b))
  | INTERACTIVE => is_interactive here (Some globals)
  | SCRIPT => is_script here (Some globals)
  | MODULE => is_module here (Some globals)
  end.

(** [State.__bool__]; Python refuses a [__bool__] that returns anything
    but a [bool]. *)
Definition State_bool (st : stack) (cls : flag) : result bool :=
  let here := enter st in
  g ← located_globals here;
  v ← predicate cls here g;
  match v with
  | VBool b => Ok b
  | _ => Raise TypeError
  end.

(** What [|] and [&] take and give back: a flag class or a plain value. *)
Inductive operand : Type :=
| OFlag (f : flag)
| OPlain (v : value).

(** [bool(x)] evaluated in a frame on top of [st]. *)
Definition py_bool (st : stack) (x : operand) : result bool :=
  match x with
  | OFlag f => State_bool st f
  | OPlain v => Ok (truthy v)
  end.

(** [State.__or__(a, b)]: [a or b] *)
Definition State_or (st : stack) (a : flag) (b : operand) : result operand :=
  let here := enter st in
  t ← State_bool here a;
  if (t : bool) then Ok (OFlag a) else Ok b.

(** [State.__ror__(b, a)]: [a or b] *)
Definition State_ror (st : stack) (b : flag) (a : operand) : result operand :=
  let here := enter st in
  t ← py_bool here a;
  if (t : bool) then Ok a else Ok (OFlag b).

(** [State.__and__(a, b)]: [a and b] *)
Definition State_and (st : stack) (a : flag) (b : operand) : result operand :=
  let here := enter st in
  t ← State_bool here a;
  if (t : bool) then Ok b else Ok (OFlag a).

(** [State.__rand__(b, a)]: [b and a] *)
Definition State_rand (st : stack) (b : flag) (a : operand) : result operand :=
  let here := enter st in
  t ← State_bool here b;
  if (t : bool) then Ok a else Ok (OFlag b).

(** ** Expressions over flags, as the module's own tests write them *)

(** Python's builtin [|] on two plain values: [bool] with [bool] gives a
    [bool], integers (a [bool] counts as one) give an [int], anything else
    is a [TypeError]. *)
Definition as_int (v : value) : option Z :=
  match v with
  | VBool b => Some (Z.b2z b)
  | VInt n => Some n
  | _ => None
  end.

Definition plain_binop (fb : bool -> bool -> bool) (fz : Z -> Z -> Z)
    (u v : value) : result operand :=
  match u, v with
  | VBool a, VBool b => Ok (OPlain (VBool (fb a b)))
  | _, _ =>
      match as_int u, as_int v with
      | Some m, Some n => Ok (OPlain (VInt (fz m n)))
      | _, _ => Raise TypeError
      end
  end.

(** [x | y]: a flag on the left answers with [State.__or__]; a plain value
    on the left does not know the class on its right, so Python falls back
    to the reflected [State.__ror__] of the flag. *)
Definition bitor (st : stack) (x y : operand) : result operand :=
  match x, y with
  | OFlag a, _ => State_or st a y
  | OPlain _, OFlag b => State_ror st b x
  | OPlain u, OPlain v => plain_binop orb Z.lor u v
  end.

(** [x & y], likewise with [State.__and__] and [State.__rand__]. *)
Definition bitand (st : stack) (x y : operand) : result operand :=
  match x, y with
  | OFlag a, _ => State_and st a y
  | OPlain _, OFlag b => State_rand st b x
  | OPlain u, OPlain v => plain_binop andb Z.land u v
  end.

Inductive expr : Type :=
| EFlag (f : flag)
| ELit (v : value)
| ENot (e : expr)
| EBitOr (e1 e2 : expr)
| EBitAnd (e1 e2 : expr).

(** Evaluation in the frame on top of [st]. *)
Fixpoint eval (st : stack) (e : expr) : result operand :=
  match e with
  | EFlag f => Ok (OFlag f)
  | ELit v => Ok (OPlain v)
  | ENot e1 => x ← eval st e1; t ← py_bool st x; Ok (OPlain (VBool (negb t)))
  | EBitOr e1 e2 => x ← eval st e1; y ← eval st e2; bitor st x y
  | EBitAnd e1 e2 => x ← eval st e1; y ← eval st e2; bitand st x y
  end.

(** The truth value an [assert e] or [if e] tests. *)
Definition truth (st : stack) (e : expr) : result bool :=
  x ← eval st e; py_bool st x.

(** ** Vocabulary of the statements *)

(** A predicate call that returned [True]. *)
Definition holds (r : result value) : Prop := r = Ok (VBool true).

Definition exactly_one (P Q R : Prop) : Prop :=
  (P /\ ~ Q /\ ~ R) \/ (~ P /\ Q /\ ~ R) \/ (~ P /\ ~ Q /\ R).

Definition at_most_one (P Q R : Prop) : Prop :=
  ~ (P /\ Q) /\ ~ (P /\ R) /\ ~ (Q /\ R).

(** The two signals of a scope, read off its bindings. *)
Definition name_is_main (s : dict) : bool :=
  truthy (eq_str (get s "__name__") "__main__").

Definition has_file (s : dict) : bool := truthy (get s "__file__").

(** The truth value of each flag on a scope, in the spec's words. *)
Definition flag_truth (f : flag) (s : dict) : bool :=
  match f with
  | MAIN => name_is_main s
  | FILE => has_file s
  | INTERACTIVE => name_is_main s && negb (has_file s)
  | SCRIPT => name_is_main s && has_file s
  | MODULE => negb (name_is_main s) && has_file s
  end.

(** The truth value of an operand on a scope. *)
Definition operand_truth (s : dict) (x : operand) : bool :=
  match x with
  | OFlag f => flag_truth f s
  | OPlain v => truthy v
  end.

(** The expression that denotes an operand. *)
Definition atom (x : operand) : expr :=
  match x with
  | OFlag f => EFlag f
  | OPlain v => ELit v
  end.

(** ** The frame locator *)

Lemma fresh_id_above st : (dict_id isa_globals < fresh_id st)%positive.
Proof.
  unfold fresh_id. induction st as [|fr st IH]; simpl; lia.
Qed.

(** A frame pushed by a call into the module is never a module-level
    frame: its locals are a new object. *)
Lemma walk_enter st : walk (enter st) = walk st.
Proof.
  pose proof (fresh_id_above st) as Hfresh.
  unfold enter. cbn [walk f_locals f_globals]. unfold is_. cbn [dict_id].
  case_bool_decide as Hid; [lia | reflexivity].
Qed.

Lemma get_last_module_walk st : get_last_module st = walk st.
Proof. apply walk_enter. Qed.

Lemma get_last_module_enter st : get_last_module (enter st) = get_last_module st.
Proof. rewrite !get_last_module_walk. apply walk_enter. Qed.

Lemma located_globals_enter st : located_globals (enter st) = located_globals st.
Proof. unfold located_globals. now rewrite get_last_module_enter. Qed.

Lemma walk_split frames fr :
  walk frames = Some fr ->
  exists inner outer,
    frames = (inner ++ fr :: outer)%list /\
    Forall (fun f => dict_id (f_locals f) <> dict_id (f_globals f)) inner /\
    dict_id (f_locals fr) = dict_id (f_globals fr).
Proof.
  induction frames as [|f frames IH]; simpl; [discriminate|].
  unfold is_. case_bool_decide as Hid.
  - intros [= ->]. exists [], frames. auto.
  - intros Hw. destruct (IH Hw) as (inner & outer & -> & Hin & Hfr).
    exists (f :: inner), outer. auto.
Qed.

Lemma walk_none frames :
  walk frames = None ->
  Forall (fun f => dict_id (f_locals f) <> dict_id (f_globals f)) frames.
Proof.
  induction frames as [|f frames IH]; simpl; [constructor|].
  unfold is_. case_bool_decide as Hid; [discriminate|]. auto.
Qed.

(** ** The predicates on an explicit scope *)

Lemma is_main_explicit st s :
  is_main st (Some s) = Ok (VBool (name_is_main s)).
Proof.
  unfold is_main, _default_globals, name_is_main, eq_str.
  destruct (get s "__name__"); reflexivity.
Qed.

Lemma is_file_explicit st s :
  is_file st (Some s) = Ok (VBool (has_file s)).
Proof. reflexivity. Qed.

Lemma is_interactive_explicit st s :
  is_interactive st (Some s) = Ok (VBool (name_is_main s && negb (has_file s))).
Proof.
  unfold is_interactive, _default_globals.
  rewrite is_main_explicit, is_file_explicit. simpl.
  destruct (name_is_main s); reflexivity.
Qed.

Lemma is_module_explicit st s :
  is_module st (Some s) = Ok (VBool (negb (name_is_main s) && has_file s)).
Proof.
  unfold is_module, _default_globals.
  rewrite is_main_explicit, is_file_explicit. simpl.
  destruct (name_is_main s); reflexivity.
Qed.

Lemma is_script_explicit st s :
  is_script st (Some s) = Ok (VBool (name_is_main s && has_file s)).
Proof.
  unfold is_script, _default_globals.
  rewrite is_main_explicit, is_file_explicit. simpl.
  destruct (name_is_main s); reflexivity.
Qed.

Lemma name_is_main_spec s :
  name_is_main s = true <-> dict_items s !! "__name__" = Some (VStr "__main__").
Proof.
  unfold name_is_main, get, eq_str.
  destruct (dict_items s !! "__name__") as [[| | |t|]|]; simpl;
    try (split; [discriminate | intros [=]]).
  rewrite bool_decide_eq_true. split; congruence.
Qed.

Lemma has_file_spec s :
  has_file s = true <->
  exists v, dict_items s !! "__file__" = Some v /\ truthy v = true.
Proof.
  unfold has_file, get.
  destruct (dict_items s !! "__file__") as [v|]; simpl.
  - split; [eauto | intros (w & [= <-] & Hw); exact Hw].
  - split; [discriminate | intros (w & [=] & _)].
Qed.

(** ** Truthiness of a flag *)

Lemma predicate_flag_truth f st s :
  predicate f st s = Ok (VBool (flag_truth f s)).
Proof.
  destruct f; unfold predicate, flag_truth.
  - apply is_main_explicit.
  - rewrite is_file_explicit. reflexivity.
  - apply is_interactive_explicit.
  - apply is_script_explicit.
  - apply is_module_explicit.
Qed.

Lemma State_bool_located st fr f :
  get_last_module st = Some fr ->
  State_bool st f = Ok (flag_truth f (f_globals fr)).
Proof.
  intros Hfr. unfold State_bool.
  rewrite located_globals_enter. unfold located_globals. rewrite Hfr. simpl.
  rewrite predicate_flag_truth. reflexivity.
Qed.

Lemma State_bool_unlocated st f :
  get_last_module st = None -> State_bool st f = Raise AttributeError.
Proof.
  intros Hfr. unfold State_bool.
  rewrite located_globals_enter. unfold located_globals. rewrite Hfr. reflexivity.
Qed.

Lemma State_bool_enter st f : State_bool (enter st) f = State_bool st f.
Proof.
  destruct (get_last_module st) as [fr|] eqn:Hfr.
  - rewrite (State_bool_located _ fr), (State_bool_located st fr); auto.
    now rewrite get_last_module_enter.
  - rewrite !State_bool_unlocated; auto. now rewrite get_last_module_enter.
Qed.

Lemma py_bool_enter st x : py_bool (enter st) x = py_bool st x.
Proof. destruct x; simpl; [apply State_bool_enter | reflexivity]. Qed.

Lemma py_bool_located st fr x :
  get_last_module st = Some fr ->
  py_bool st x = Ok (operand_truth (f_globals fr) x).
Proof.
  intros Hfr. destruct x; simpl; [now apply State_bool_located | reflexivity].
Qed.

(** ** The operators under a located module scope *)

Section Located.

Variables (st : stack) (fr : frame).
Hypothesis Hfr : get_last_module st = Some fr.

Let s := f_globals fr.

Lemma State_or_located a b :
  State_or st a b = Ok (if flag_truth a s then OFlag a else b).
Proof.
  unfold State_or. rewrite State_bool_enter, (State_bool_located st fr) by exact Hfr.
  unfold s. now destruct (flag_truth _ _).
Qed.

Lemma State_and_located a b :
  State_and st a b = Ok (if flag_truth a s then b else OFlag a).
Proof.
  unfold State_and. rewrite State_bool_enter, (State_bool_located st fr) by exact Hfr.
  unfold s. now destruct (flag_truth _ _).
Qed.

Lemma State_ror_located b a :
  State_ror st b a = Ok (if operand_truth s a then a else OFlag b).
Proof.
  unfold State_ror. rewrite py_bool_enter, (py_bool_located st fr) by exact Hfr.
  unfold s. now destruct (operand_truth _ _).
Qed.

Lemma State_rand_located b a :
  State_rand st b a = Ok (if flag_truth b s then a else OFlag b).
Proof.
  unfold State_rand. rewrite State_bool_enter, (State_bool_located st fr) by exact Hfr.
  unfold s. now destruct (flag_truth _ _).
Qed.

Lemma py_bool_if (t : bool) x y :
  py_bool st (if t then x else y)
  = Ok (if t then operand_truth s x else operand_truth s y).
Proof. destruct t; apply (py_bool_located st fr); exact Hfr. Qed.

End Located.

(** ** The predicates *)

(** C1, as amended: on every scope at most one of [is_interactive],
    [is_module], [is_script] is true, and exactly one of them is true
    precisely when [is_main] or [is_file] is true; a scope that is neither
    the entry point nor file-backed makes all three false. *)
Theorem modes_exclusive_and_exhaustive_on_named_scopes st s :
  let I := holds (is_interactive st (Some s)) in
  let M := holds (is_module st (Some s)) in
  let S := holds (is_script st (Some s)) in
  at_most_one I M S /\
  (exactly_one I M S <->
   holds (is_main st (Some s)) \/ holds (is_file st (Some s))).
Proof.
  unfold holds, at_most_one, exactly_one.
  rewrite is_interactive_explicit, is_module_explicit, is_script_explicit,
    is_main_explicit, is_file_explicit.
  destruct (name_is_main s), (has_file s); simpl;
    intuition (try discriminate; auto).
Qed.

(** C2: [is_interactive(s)] is [is_main(s) and not is_file(s)],
    [is_module(s)] is [not is_main(s) and is_file(s)], [is_script(s)] is
    [is_main(s) and is_file(s)], on every scope. *)
Theorem modes_are_combinations_of_main_and_file st s :
  exists m f : bool,
    is_main st (Some s) = Ok (VBool m) /\
    is_file st (Some s) = Ok (VBool f) /\
    is_interactive st (Some s) = Ok (VBool (m && negb f)) /\
    is_module st (Some s) = Ok (VBool (negb m && f)) /\
    is_script st (Some s) = Ok (VBool (m && f)).
Proof.
  exists (name_is_main s), (has_file s).
  rewrite is_interactive_explicit, is_module_explicit, is_script_explicit,
    is_main_explicit, is_file_explicit.
  repeat split.
Qed.

(** C3: when [is_file(s)] or [is_main(s)] is true, one of
    [is_interactive(s)], [is_module(s)], [is_script(s)] is true. *)
Theorem some_mode_when_main_or_file st s :
  holds (is_file st (Some s)) \/ holds (is_main st (Some s)) ->
  holds (is_interactive st (Some s)) \/
  holds (is_module st (Some s)) \/
  holds (is_script st (Some s)).
Proof.
  unfold holds.
  rewrite is_interactive_explicit, is_module_explicit, is_script_explicit,
    is_main_explicit, is_file_explicit.
  destruct (name_is_main s), (has_file s); simpl;
    intuition (try discriminate; auto).
Qed.

(** C5: [is_main(s)] is true exactly when [s] binds ["__name__"] to the
    string ["__main__"]. *)
Theorem is_main_iff_name_is_sentinel st s :
  (holds (is_main st (Some s)) <->
   dict_items s !! "__name__" = Some (VStr "__main__")) /\
  (is_main st (Some s) = Ok (VBool false) <->
   dict_items s !! "__name__" <> Some (VStr "__main__")).
Proof.
  unfold holds. rewrite is_main_explicit.
  pose proof (name_is_main_spec s) as Hspec.
  destruct (name_is_main s); split; split; intros H;
    try discriminate; try reflexivity.
  - now apply Hspec.
  - exfalso. apply H. now apply Hspec.
  - apply Hspec in H. discriminate.
  - intros Hn. apply Hspec in Hn. discriminate.
Qed.

(** C6: [is_file(s)] is true exactly when [s] binds ["__file__"] to a
    truthy value; an empty string bound to it, or no binding at all,
    gives [False]. *)
Theorem is_file_iff_file_binding_truthy st s :
  (holds (is_file st (Some s)) <->
   exists v, dict_items s !! "__file__" = Some v /\ truthy v = true) /\
  (forall i (m : gmap string value),
     is_file st (Some (Dict i (<["__file__" := VStr ""]> m))) = Ok (VBool false)) /\
  (forall i (m : gmap string value),
     is_file st (Some (Dict i (delete "__file__" m))) = Ok (VBool false)).
Proof.
  split; [|split].
  - unfold holds. rewrite is_file_explicit.
    rewrite <- has_file_spec. split; [intros [= ->]; reflexivity | intros ->; reflexivity].
  - intros i m. rewrite is_file_explicit. unfold has_file, get. simpl.
    now rewrite lookup_insert_eq.
  - intros i m. rewrite is_file_explicit. unfold has_file, get. simpl.
    now rewrite lookup_delete_eq.
Qed.

(** C7: on an explicit scope each of the five predicates returns a
    [bool] and raises nothing; a scope without ["__name__"] makes
    [is_main] false and one without ["__file__"] makes [is_file] false. *)
Theorem predicates_total_on_explicit_scope st s :
  (exists b, is_main st (Some s) = Ok (VBool b)) /\
  (exists b, is_file st (Some s) = Ok (VBool b)) /\
  (exists b, is_interactive st (Some s) = Ok (VBool b)) /\
  (exists b, is_module st (Some s) = Ok (VBool b)) /\
  (exists b, is_script st (Some s) = Ok (VBool b)) /\
  (dict_items s !! "__name__" = None -> is_main st (Some s) = Ok (VBool false)) /\
  (dict_items s !! "__file__" = None -> is_file st (Some s) = Ok (VBool false)).
Proof.
  rewrite is_interactive_explicit, is_module_explicit, is_script_explicit,
    is_main_explicit, is_file_explicit.
  repeat split; eauto.
  - intros Hn. unfold name_is_main, get. now rewrite Hn.
  - intros Hn. unfold has_file, get. now rewrite Hn.
Qed.

(** ** The frame locator *)

(** C8: [get_last_module] returns the first frame, from the innermost one
    outwards, whose locals and globals are the same object, and [None]
    when the stack has no such frame. *)
Theorem get_last_module_first_module_frame st :
  let frames := enter st in
  match get_last_module st with
  | Some fr =>
      exists inner outer,
        frames = (inner ++ fr :: outer)%list /\
        Forall (fun f => dict_id (f_locals f) <> dict_id (f_globals f)) inner /\
        dict_id (f_locals fr) = dict_id (f_globals fr)
  | None =>
      Forall (fun f => dict_id (f_locals f) <> dict_id (f_globals f)) frames
  end.
Proof.
  unfold get_last_module. cbv zeta.
  destruct (walk (enter st)) as [fr|] eqn:Hw.
  - now apply walk_split.
  - now apply walk_none.
Qed.

(** ** The flags *)

Lemma truth_bitor_located st fr x y :
  get_last_module st = Some fr ->
  (exists f, x = OFlag f) \/ (exists f, y = OFlag f) ->
  (r ← bitor st x y; py_bool st r)
  = Ok (operand_truth (f_globals fr) x || operand_truth (f_globals fr) y).
Proof.
  intros Hfr Hflag.
  destruct x as [a|u], y as [b|v]; simpl bitor;
    try (destruct Hflag as [[f [=]]|[f [=]]]; fail).
  - rewrite (State_or_located st fr) by exact Hfr. simpl mbind.
    rewrite (py_bool_if st fr) by exact Hfr. simpl.
    now destruct (flag_truth a _).
  - rewrite (State_or_located st fr) by exact Hfr. simpl mbind.
    rewrite (py_bool_if st fr) by exact Hfr. simpl.
    now destruct (flag_truth a _).
  - rewrite (State_ror_located st fr) by exact Hfr. simpl mbind.
    rewrite (py_bool_if st fr) by exact Hfr. simpl.
    now destruct (truthy u).
Qed.

Lemma truth_bitand_located st fr x y :
  get_last_module st = Some fr ->
  (exists f, x = OFlag f) \/ (exists f, y = OFlag f) ->
  (r ← bitand st x y; py_bool st r)
  = Ok (operand_truth (f_globals fr) x && operand_truth (f_globals fr) y).
Proof.
  intros Hfr Hflag.
  destruct x as [a|u], y as [b|v]; simpl bitand;
    try (destruct Hflag as [[f [=]]|[f [=]]]; fail).
  - rewrite (State_and_located st fr) by exact Hfr. simpl mbind.
    rewrite (py_bool_if st fr) by exact Hfr. simpl.
    now destruct (flag_truth a _).
  - rewrite (State_and_located st fr) by exact Hfr. simpl mbind.
    rewrite (py_bool_if st fr) by exact Hfr. simpl.
    now destruct (flag_truth a _).
  - rewrite (State_rand_located st fr) by exact Hfr. simpl mbind.
    rewrite (py_bool_if st fr) by exact Hfr. simpl.
    destruct (flag_truth b _), (truthy u); reflexivity.
Qed.

Lemma truth_or_atoms st fr x y :
  get_last_module st = Some fr ->
  (exists f, x = OFlag f) \/ (exists f, y = OFlag f) ->
  truth st (EBitOr (atom x) (atom y))
  = Ok (operand_truth (f_globals fr) x || operand_truth (f_globals fr) y).
Proof.
  intros Hfr Hflag. rewrite <- (truth_bitor_located st fr x y Hfr Hflag).
  destruct x, y; reflexivity.
Qed.

Lemma truth_and_atoms st fr x y :
  get_last_module st = Some fr ->
  (exists f, x = OFlag f) \/ (exists f, y = OFlag f) ->
  truth st (EBitAnd (atom x) (atom y))
  = Ok (operand_truth (f_globals fr) x && operand_truth (f_globals fr) y).
Proof.
  intros Hfr Hflag. rewrite <- (truth_bitand_located st fr x y Hfr Hflag).
  destruct x, y; reflexivity.
Qed.

(** C4, as amended: in a fixed caller scope the truth value of [a | b]
    equals that of [b | a], and the truth value of [a & b] that of
    [b & a], for two flags and for a flag with a [bool] literal; the
    objects the two orders return may differ. *)
Theorem or_and_commute_in_truth_value st fr :
  get_last_module st = Some fr ->
  (forall a b : flag, exists t u : bool,
     truth st (EBitOr (EFlag a) (EFlag b)) = Ok t /\
     truth st (EBitOr (EFlag b) (EFlag a)) = Ok t /\
     truth st (EBitAnd (EFlag a) (EFlag b)) = Ok u /\
     truth st (EBitAnd (EFlag b) (EFlag a)) = Ok u) /\
  (forall (a : flag) (lit : bool), exists t u : bool,
     truth st (EBitOr (EFlag a) (ELit (VBool lit))) = Ok t /\
     truth st (EBitOr (ELit (VBool lit)) (EFlag a)) = Ok t /\
     truth st (EBitAnd (EFlag a) (ELit (VBool lit))) = Ok u /\
     truth st (EBitAnd (ELit (VBool lit)) (EFlag a)) = Ok u).
Proof.
  intros Hfr.
  assert (Hl : forall (f : flag) (y : operand),
             (exists g, OFlag f = OFlag g) \/ (exists g, y = OFlag g)) by eauto.
  assert (Hr : forall (x : operand) (f : flag),
             (exists g, x = OFlag g) \/ (exists g, OFlag f = OFlag g)) by eauto.
  split.
  - intros a b.
    exists (flag_truth a (f_globals fr) || flag_truth b (f_globals fr)),
           (flag_truth a (f_globals fr) && flag_truth b (f_globals fr)).
    repeat split.
    + exact (truth_or_atoms st fr (OFlag a) (OFlag b) Hfr (Hl _ _)).
    + rewrite orb_comm.
      exact (truth_or_atoms st fr (OFlag b) (OFlag a) Hfr (Hl _ _)).
    + exact (truth_and_atoms st fr (OFlag a) (OFlag b) Hfr (Hl _ _)).
    + rewrite andb_comm.
      exact (truth_and_atoms st fr (OFlag b) (OFlag a) Hfr (Hl _ _)).
  - intros a lit.
    exists (flag_truth a (f_globals fr) || lit),
           (flag_truth a (f_globals fr) && lit).
    repeat split.
    + exact (truth_or_atoms st fr (OFlag a) (OPlain (VBool lit)) Hfr (Hl _ _)).
    + rewrite orb_comm.
      exact (truth_or_atoms st fr (OPlain (VBool lit)) (OFlag a) Hfr (Hr _ _)).
    + exact (truth_and_atoms st fr (OFlag a) (OPlain (VBool lit)) Hfr (Hl _ _)).
    + rewrite andb_comm.
      exact (truth_and_atoms st fr (OPlain (VBool lit)) (OFlag a) Hfr (Hr _ _)).
Qed.

(** C9: seen from an imported module (the located scope binds
    ["__name__"] to something other than ["__main__"] and ["__file__"] to
    a truthy value) [MODULE] and [FILE] are true, [MAIN], [INTERACTIVE]
    and [SCRIPT] are false, [MAIN | SCRIPT] is false and
    [MODULE & (not MAIN) & FILE] is true. *)
Theorem flags_in_imported_module st fr :
  get_last_module st = Some fr ->
  dict_items (f_globals fr) !! "__name__" <> Some (VStr "__main__") ->
  (exists v, dict_items (f_globals fr) !! "__file__" = Some v /\ truthy v = true) ->
  State_bool st MODULE = Ok true /\
  State_bool st FILE = Ok true /\
  State_bool st MAIN = Ok false /\
  State_bool st INTERACTIVE = Ok false /\
  State_bool st SCRIPT = Ok false /\
  truth st (EBitOr (EFlag MAIN) (EFlag SCRIPT)) = Ok false /\
  truth st (EBitAnd (EBitAnd (EFlag MODULE) (ENot (EFlag MAIN))) (EFlag FILE))
  = Ok true.
Proof.
  intros Hfr Hname Hfile.
  assert (Hm : name_is_main (f_globals fr) = false).
  { destruct (name_is_main (f_globals fr)) eqn:E; [|reflexivity].
    apply name_is_main_spec in E. contradiction. }
  assert (Hf : has_file (f_globals fr) = true) by now apply has_file_spec.
  assert (Hb : forall f, State_bool st f = Ok (flag_truth f (f_globals fr))).
  { intros f. now apply State_bool_located. }
  repeat split.
  - rewrite Hb. simpl. now rewrite Hm, Hf.
  - rewrite Hb. simpl. now rewrite Hf.
  - rewrite Hb. simpl. now rewrite Hm.
  - rewrite Hb. simpl. now rewrite Hm.
  - rewrite Hb. simpl. now rewrite Hm.
  - change (truth st (EBitOr (atom (OFlag MAIN)) (atom (OFlag SCRIPT))) = Ok false).
    rewrite (truth_or_atoms st fr (OFlag MAIN) (OFlag SCRIPT) Hfr) by eauto.
    simpl. now rewrite Hm.
  - unfold truth. cbn [eval mbind result_bind py_bool]. rewrite Hb.
    cbn [mbind result_bind bitand].
    rewrite (State_and_located st fr) by exact Hfr.
    cbn [flag_truth]. rewrite Hm, Hf.
    cbn [negb andb mbind result_bind bitand].
    rewrite (State_rand_located st fr) by exact Hfr.
    cbn [flag_truth]. rewrite Hf. reflexivity.
Qed.

(** C10, as amended: in a fixed scope the operators give back one of
    their two operands, never a coerced [bool].  [f | x] is [f] when [f]
    is true and [x] otherwise; [f & x] is [f] when [f] is false and [x]
    otherwise; [x | f] is [x] when [x] is true and [f] otherwise.  [x & f]
    is [f] when [f] is false and [x] otherwise for an [x] that is not a
    flag (the reflected [State.__rand__] runs); between two flags it is
    [State.__and__] of [x] that runs, so [x & f] is [x] when [x] is false
    and [f] otherwise.  In every case the truth value of the result is
    the disjunction, for [|], or the conjunction, for [&], of the truth
    values of the operands. *)
Theorem operators_return_an_operand st fr (f : flag) (x : operand) :
  get_last_module st = Some fr ->
  exists tf tx : bool,
    State_bool st f = Ok tf /\ py_bool st x = Ok tx /\
    State_or st f x = Ok (if tf then OFlag f else x) /\
    State_and st f x = Ok (if tf then x else OFlag f) /\
    State_ror st f x = Ok (if tx then x else OFlag f) /\
    State_rand st f x = Ok (if tf then x else OFlag f) /\
    bitor st (OFlag f) x = Ok (if tf then OFlag f else x) /\
    bitand st (OFlag f) x = Ok (if tf then x else OFlag f) /\
    bitor st x (OFlag f) = Ok (if tx then x else OFlag f) /\
    bitand st x (OFlag f)
    = Ok (match x with
          | OPlain _ => if tf then x else OFlag f
          | OFlag _ => if tx then OFlag f else x
          end) /\
    (r ← bitor st (OFlag f) x; py_bool st r) = Ok (tf || tx) /\
    (r ← bitor st x (OFlag f); py_bool st r) = Ok (tx || tf) /\
    (r ← bitand st (OFlag f) x; py_bool st r) = Ok (tf && tx) /\
    (r ← bitand st x (OFlag f); py_bool st r) = Ok (tx && tf).
Proof.
  intros Hfr.
  exists (flag_truth f (f_globals fr)), (operand_truth (f_globals fr) x).
  split; [now apply State_bool_located|].
  split; [now apply py_bool_located|].
  split; [now apply State_or_located|].
  split; [now apply State_and_located|].
  split; [now apply State_ror_located|].
  split; [now apply State_rand_located|].
  split; [now apply State_or_located|].
  split; [now apply State_and_located|].
  split.
  { destruct x as [g|v]; simpl bitor.
    - now apply State_or_located.
    - now apply State_ror_located. }
  split.
  { destruct x as [g|v]; simpl bitand.
    - now apply State_and_located.
    - now apply State_rand_located. }
  split; [apply (truth_bitor_located st fr (OFlag f) x Hfr); eauto|].
  split; [apply (truth_bitor_located st fr x (OFlag f) Hfr); eauto|].
  split; [apply (truth_bitand_located st fr (OFlag f) x Hfr); eauto|].
  apply (truth_bitand_located st fr x (OFlag f) Hfr); eauto.
Qed.

End Isa.

(** ** The statements at concrete scopes *)

Import Example.

(** The scope of [isa.py] run as a script, and the report it prints. *)
Example script_run_reports_script :
  let main := Dict 4 (<["__name__" := VStr "__main__"]>
                        (<["__file__" := VStr "isa.py"]> ∅)) in
  let st := [Frame main main] in
  State_bool main st INTERACTIVE = Ok false /\
  State_bool main st MODULE = Ok false /\
  State_bool main st SCRIPT = Ok true.
Proof. vm_compute. repeat split. Qed.

(** A call from inside a function of [app]: the function frame is passed
    over and the module frame of [app] is found. *)
Example located_from_a_function :
  get_last_module isa_module (Frame (Dict 7 ∅) importer :: importer_stack)
  = Some (Frame importer importer).
Proof. vm_compute. reflexivity. Qed.

(** Without any module-level frame a flag cannot be evaluated. *)
Example flag_without_module_frame :
  State_bool isa_module [] MAIN = Raise AttributeError /\
  is_main isa_module [] None = Raise AttributeError.
Proof. vm_compute. split; reflexivity. Qed.

(** C1, as it is written, fails on a scope without bindings: none of the
    three predicates is true there. *)
Lemma no_mode_on_bare_scope :
  is_interactive isa_module [] (Some bare) = Ok (VBool false) /\
  is_module isa_module [] (Some bare) = Ok (VBool false) /\
  is_script isa_module [] (Some bare) = Ok (VBool false) /\
  ~ exactly_one (holds (is_interactive isa_module [] (Some bare)))
                (holds (is_module isa_module [] (Some bare)))
                (holds (is_script isa_module [] (Some bare))).
Proof.
  assert (Hi : is_interactive isa_module [] (Some bare) = Ok (VBool false))
    by (vm_compute; reflexivity).
  assert (Hm : is_module isa_module [] (Some bare) = Ok (VBool false))
    by (vm_compute; reflexivity).
  assert (Hs : is_script isa_module [] (Some bare) = Ok (VBool false))
    by (vm_compute; reflexivity).
  repeat split; try assumption.
  unfold exactly_one, holds. rewrite Hi, Hm, Hs.
  intros [(H & _)|[(_ & H & _)|(_ & _ & H)]]; discriminate.
Qed.

(** C3 at the scope of an imported module, where [is_file] is true. *)
Lemma some_mode_when_main_or_file_witness :
  (holds (is_file isa_module [] (Some importer)) \/
   holds (is_main isa_module [] (Some importer))) /\
  (holds (is_interactive isa_module [] (Some importer)) \/
   holds (is_module isa_module [] (Some importer)) \/
   holds (is_script isa_module [] (Some importer))).
Proof.
  assert (H : holds (is_file isa_module [] (Some importer)))
    by (vm_compute; reflexivity).
  split; [left; exact H|].
  apply (some_mode_when_main_or_file isa_module [] importer). left. exact H.
Defined.

(** C4, as it is written, fails on the objects: at the top level of an
    imported module [MODULE | FILE] is [MODULE] and [FILE | MODULE] is
    [FILE], and [MODULE | True] is [MODULE] while [True | MODULE] is
    [True]. *)
Lemma or_returns_different_objects_when_swapped :
  eval isa_module importer_stack (EBitOr (EFlag MODULE) (EFlag FILE))
  = Ok (OFlag MODULE) /\
  eval isa_module importer_stack (EBitOr (EFlag FILE) (EFlag MODULE))
  = Ok (OFlag FILE) /\
  eval isa_module importer_stack (EBitOr (EFlag MODULE) (ELit (VBool true)))
  = Ok (OFlag MODULE) /\
  eval isa_module importer_stack (EBitOr (ELit (VBool true)) (EFlag MODULE))
  = Ok (OPlain (VBool true)) /\
  eval isa_module importer_stack (EBitOr (EFlag MODULE) (EFlag FILE))
  <> eval isa_module importer_stack (EBitOr (EFlag FILE) (EFlag MODULE)).
Proof.
  assert (H1 : eval isa_module importer_stack (EBitOr (EFlag MODULE) (EFlag FILE))
               = Ok (OFlag MODULE)) by (vm_compute; reflexivity).
  assert (H2 : eval isa_module importer_stack (EBitOr (EFlag FILE) (EFlag MODULE))
               = Ok (OFlag FILE)) by (vm_compute; reflexivity).
  repeat split; try assumption; try (vm_compute; reflexivity).
  rewrite H1, H2. discriminate.
Qed.

(** C4, as amended, at the top level of an imported module. *)
Lemma or_and_commute_in_truth_value_witness :
  get_last_module isa_module importer_stack = Some (Frame importer importer) /\
  exists t u : bool,
    truth isa_module importer_stack (EBitOr (EFlag MODULE) (EFlag FILE)) = Ok t /\
    truth isa_module importer_stack (EBitOr (EFlag FILE) (EFlag MODULE)) = Ok t /\
    truth isa_module importer_stack (EBitAnd (EFlag MODULE) (EFlag FILE)) = Ok u /\
    truth isa_module importer_stack (EBitAnd (EFlag FILE) (EFlag MODULE)) = Ok u.
Proof.
  split; [vm_compute; reflexivity|].
  apply (or_and_commute_in_truth_value isa_module importer_stack
           (Frame importer importer)).
  vm_compute. reflexivity.
Defined.

(** C9 at the top level of the module [app]. *)
Lemma flags_in_imported_module_witness :
  get_last_module isa_module importer_stack = Some (Frame importer importer) /\
  dict_items importer !! "__name__" <> Some (VStr "__main__") /\
  (exists v, dict_items importer !! "__file__" = Some v /\ truthy v = true) /\
  State_bool isa_module importer_stack MODULE = Ok true /\
  State_bool isa_module importer_stack FILE = Ok true /\
  State_bool isa_module importer_stack MAIN = Ok false /\
  State_bool isa_module importer_stack INTERACTIVE = Ok false /\
  State_bool isa_module importer_stack SCRIPT = Ok false /\
  truth isa_module importer_stack (EBitOr (EFlag MAIN) (EFlag SCRIPT)) = Ok false /\
  truth isa_module importer_stack
    (EBitAnd (EBitAnd (EFlag MODULE) (ENot (EFlag MAIN))) (EFlag FILE))
  = Ok true.
Proof.
  assert (H1 : get_last_module isa_module importer_stack
               = Some (Frame importer importer)) by (vm_compute; reflexivity).
  assert (H2 : dict_items importer !! "__name__" <> Some (VStr "__main__"))
    by (vm_compute; discriminate).
  assert (H3 : exists v, dict_items importer !! "__file__" = Some v /\ truthy v = true)
    by (exists (VStr "app.py"); vm_compute; split; reflexivity).
  split; [exact H1|]. split; [exact H2|]. split; [exact H3|].
  exact (flags_in_imported_module isa_module importer_stack
           (Frame importer importer) H1 H2 H3).
Defined.

(** C10, as it is written, fails for [x & f] between two flags: at the
    top level of an imported module [FILE] is true, so the claim gives
    [MODULE & FILE] as [MODULE], and the code gives [FILE]. *)
Lemma and_between_flags_returns_right_operand :
  State_bool isa_module importer_stack FILE = Ok true /\
  bitand isa_module importer_stack (OFlag MODULE) (OFlag FILE) = Ok (OFlag FILE) /\
  bitand isa_module importer_stack (OFlag MODULE) (OFlag FILE) <> Ok (OFlag MODULE).
Proof.
  assert (H : bitand isa_module importer_stack (OFlag MODULE) (OFlag FILE)
              = Ok (OFlag FILE)) by (vm_compute; reflexivity).
  repeat split; try assumption; try (vm_compute; reflexivity).
  rewrite H. discriminate.
Qed.

(** C10, as amended, for [MAIN] and the literal [True] in [app]. *)
Lemma operators_return_an_operand_witness :
  get_last_module isa_module importer_stack = Some (Frame importer importer) /\
  exists tf tx : bool,
    State_bool isa_module importer_stack MAIN = Ok tf /\
    py_bool isa_module importer_stack (OPlain (VBool true)) = Ok tx /\
    State_or isa_module importer_stack MAIN (OPlain (VBool true))
    = Ok (if tf then OFlag MAIN else OPlain (VBool true)) /\
    State_rand isa_module importer_stack MAIN (OPlain (VBool true))
    = Ok (if tf then OPlain (VBool true) else OFlag MAIN).
Proof.
  split; [vm_compute; reflexivity|].
  destruct (operators_return_an_operand isa_module importer_stack
              (Frame importer importer) MAIN (OPlain (VBool true)))
    as (tf & tx & Hf & Hx & Hor & _ & _ & Hrand & _).
  - vm_compute. reflexivity.
  - exists tf, tx. auto.
Defined.

(** * The rest of the module

    [State.__str__], the pairing of each flag class with the function its
    [predicate] calls, and the statements at the bottom of [isa.py] that
    run when the module is executed or imported. *)

Section Rest.

Variable isa_globals : dict.

(** [State.__str__]: [str(bool(cls))] *)
Definition State_str (st : stack) (cls : flag) : result string :=
  let here := enter isa_globals st in
  b ← State_bool isa_globals here cls;
  Ok (if (b : bool) then "True" else "False").

(** The module function that [cls.predicate] hands its argument to. *)
Definition function_of (cls : flag) : stack -> option dict -> result value :=
  match cls with
  | MAIN => is_main isa_globals
  | FILE => is_file isa_globals
  | INTERACTIVE => is_interactive isa_globals
  | SCRIPT => is_script isa_globals
  | MODULE => is_module isa_globals
  end.

(** The line feed between the lines of the report. *)
Definition nl : string := String (Ascii.ascii_of_nat 10) "".

(** The f-string handed to [print]. *)
Definition report (i m s : string) : string :=
  "interactive: " ++ i ++ nl ++ "module: " ++ m ++ nl ++ "script: " ++ s.

(** What running the body of the module did: it printed [text] (and the
    line end [print] adds), or it bound [__test__] to its two doctests,
    the first of which interpolates the value of [__file__], or neither
    branch was taken. *)
Inductive outcome : Type :=
| Printed (text : string)
| Registered (file : value)
| Skipped.

(** An exception of the flags, or the [NameError] of a global name that
    is not bound. *)
Inductive body_error : Type :=
| Raised (e : exn)
| NameError (name : string).

Inductive completion : Type :=
| Completes (o : outcome)
| Fails (e : body_error).

(** [if SCRIPT: print(...) elif MODULE: ... __test__ = dict(...)], run in
    the module-level frame of [isa] on top of [outer].  An f-string field
    [{X}] formats the class [X] with [str], which is [State.__str__].  The
    import of [check_output] from the standard library is taken to
    succeed. *)
Definition module_body (outer : stack) : completion :=
  let st := Frame isa_globals isa_globals :: outer in
  match State_bool isa_globals st SCRIPT with
  | Raise e => Fails (Raised e)
  | Ok true =>
      match State_str st INTERACTIVE with
      | Raise e => Fails (Raised e)
      | Ok i =>
          match State_str st MODULE with
          | Raise e => Fails (Raised e)
          | Ok m =>
              match State_str st SCRIPT with
              | Raise e => Fails (Raised e)
              | Ok s => Completes (Printed (report i m s))
              end
          end
      end
  | Ok false =>
      match State_bool isa_globals st MODULE with
      | Raise e => Fails (Raised e)
      | Ok true =>
          match dict_items isa_globals !! "__file__" with
          | Some file => Completes (Registered file)
          | None => Fails (NameError "__file__")
          end
      | Ok false => Completes Skipped
      end
  end.

(** Expressions whose literals are all [True] or [False]. *)
Fixpoint bool_literals (e : expr) : bool :=
  match e with
  | EFlag _ => true
  | ELit (VBool _) => true
  | ELit _ => false
  | ENot e1 => bool_literals e1
  | EBitOr e1 e2 | EBitAnd e1 e2 => bool_literals e1 && bool_literals e2
  end.

(** The propositional reading of an expression under a valuation of the
    flags. *)
Fixpoint denote (rho : flag -> bool) (e : expr) : bool :=
  match e with
  | EFlag f => rho f
  | ELit v => truthy v
  | ENot e1 => negb (denote rho e1)
  | EBitOr e1 e2 => denote rho e1 || denote rho e2
  | EBitAnd e1 e2 => denote rho e1 && denote rho e2
  end.

(** A frame of a function or class body: its locals are not its globals. *)
Definition function_frame (fr : frame) : Prop :=
  dict_id (f_locals fr) <> dict_id (f_globals fr).

(** A module-level frame. *)
Definition module_frame (fr : frame) : Prop :=
  dict_id (f_locals fr) = dict_id (f_globals fr).

(** ** Where the locator lands *)

Lemma get_last_module_function_frame fr st :
  function_frame fr ->
  get_last_module isa_globals (fr :: st) = get_last_module isa_globals st.
Proof.
  intros Hne. rewrite !get_last_module_walk. cbn [walk]. unfold is_.
  now rewrite bool_decide_eq_false_2.
Qed.

Lemma get_last_module_module_frame fr st :
  module_frame fr -> get_last_module isa_globals (fr :: st) = Some fr.
Proof.
  intros He. rewrite get_last_module_walk. cbn [walk]. unfold is_.
  now rewrite bool_decide_eq_true_2.
Qed.

Lemma State_bool_by_locator st st' f :
  get_last_module isa_globals st = get_last_module isa_globals st' ->
  State_bool isa_globals st f = State_bool isa_globals st' f.
Proof.
  intros E. destruct (get_last_module isa_globals st') as [fr|] eqn:E'.
  - rewrite (State_bool_located isa_globals st fr f E).
    now rewrite (State_bool_located isa_globals st' fr f E').
  - rewrite (State_bool_unlocated isa_globals st f E).
    now rewrite (State_bool_unlocated isa_globals st' f E').
Qed.

Lemma function_of_default st f :
  function_of f st None
  = match get_last_module isa_globals st with
    | Some fr => function_of f st (Some (f_globals fr))
    | None => Raise AttributeError
    end.
Proof.
  destruct f; unfold function_of, is_main, is_file, is_interactive,
    is_module, is_script, _default_globals;
  rewrite located_globals_enter; unfold located_globals;
  destruct (get_last_module isa_globals st); reflexivity.
Qed.

Lemma function_of_explicit st f s :
  function_of f st (Some s) = Ok (VBool (flag_truth f s)).
Proof.
  destruct f; unfold function_of, flag_truth.
  - apply is_main_explicit.
  - apply is_file_explicit.
  - apply is_interactive_explicit.
  - apply is_script_explicit.
  - apply is_module_explicit.
Qed.

(** X1: a predicate called without an argument works on the globals of
    the frame that the locator finds from the caller, exactly as if they
    had been passed: the frames of the wrapper and of the locator are
    passed over. *)
Theorem default_scope_is_located_module st fr f :
  get_last_module isa_globals st = Some fr ->
  function_of f st None = function_of f st (Some (f_globals fr)).
Proof. intros Hfr. now rewrite function_of_default, Hfr. Qed.

(** X2: from a stack without a module-level frame every predicate called
    without an argument, the truth value of every flag and its [str] end
    in the [AttributeError] of [None.f_globals]. *)
Theorem no_module_frame_raises st f :
  get_last_module isa_globals st = None ->
  function_of f st None = Raise AttributeError /\
  State_bool isa_globals st f = Raise AttributeError /\
  State_str st f = Raise AttributeError.
Proof.
  intros Hno. split; [|split].
  - now rewrite function_of_default, Hno.
  - now apply State_bool_unlocated.
  - unfold State_str. rewrite State_bool_enter.
    now rewrite (State_bool_unlocated isa_globals st f Hno).
Qed.

(** X3: on every stack the truth value of a flag class is the result of
    the function of the same name called without an argument, and either
    both raise the same exception or neither does. *)
Theorem flag_agrees_with_function st f :
  match State_bool isa_globals st f with
  | Ok b => function_of f st None = Ok (VBool b)
  | Raise e => function_of f st None = Raise e
  end.
Proof.
  rewrite function_of_default.
  destruct (get_last_module isa_globals st) as [fr|] eqn:Hfr.
  - rewrite (State_bool_located isa_globals st fr f Hfr).
    apply function_of_explicit.
  - now rewrite (State_bool_unlocated isa_globals st f Hfr).
Qed.

(** X4: a call through a function or class body, whatever module it was
    defined in, changes neither the truth value of a flag nor the result
    of a predicate called without an argument: both are those of the
    caller. *)
Theorem function_call_keeps_flags fr st f :
  function_frame fr ->
  State_bool isa_globals (fr :: st) f = State_bool isa_globals st f /\
  function_of f (fr :: st) None = function_of f st None.
Proof.
  intros Hfn. pose proof (get_last_module_function_frame fr st Hfn) as E.
  split.
  - now apply State_bool_by_locator.
  - rewrite !function_of_default, E.
    destruct (get_last_module isa_globals st); [|reflexivity].
    now rewrite !function_of_explicit.
Qed.

(** X5: the frame [get_last_module] returns is a frame of its caller's
    stack, the first module-level one, never the frame of the locator
    itself; it returns [None] exactly when the caller's stack has none. *)
Theorem get_last_module_in_caller_stack st :
  match get_last_module isa_globals st with
  | Some fr =>
      exists inner outer,
        st = (inner ++ fr :: outer)%list /\
        Forall function_frame inner /\ module_frame fr
  | None => Forall function_frame st
  end.
Proof.
  rewrite get_last_module_walk.
  destruct (walk st) as [fr|] eqn:Hw.
  - now apply walk_split.
  - now apply walk_none.
Qed.

(** X6: [str] of a flag is the text ["True"] or ["False"] of the truth
    value the flag has for the caller, and raises what that raises. *)
Theorem State_str_is_text_of_bool st f :
  match State_str st f with
  | Ok s =>
      exists b : bool,
        State_bool isa_globals st f = Ok b /\
        s = if b then "True" else "False"
  | Raise e => State_bool isa_globals st f = Raise e
  end.
Proof.
  unfold State_str. rewrite State_bool_enter.
  destruct (State_bool isa_globals st f) as [b|e]; simpl; eauto.
Qed.

(** ** Running the module *)

Lemma own_frame_located outer :
  get_last_module isa_globals (Frame isa_globals isa_globals :: outer)
  = Some (Frame isa_globals isa_globals).
Proof. now apply get_last_module_module_frame. Qed.

Lemma State_str_located st fr f :
  get_last_module isa_globals st = Some fr ->
  State_str st f
  = Ok (if flag_truth f (f_globals fr) then "True" else "False").
Proof.
  intros Hfr. unfold State_str.
  rewrite State_bool_enter, (State_bool_located isa_globals st fr f Hfr).
  reflexivity.
Qed.

Lemma module_body_by_signals outer :
  module_body outer
  = if name_is_main isa_globals && has_file isa_globals
    then Completes (Printed (report "False" "False" "True"))
    else if negb (name_is_main isa_globals) && has_file isa_globals
         then match dict_items isa_globals !! "__file__" with
              | Some file => Completes (Registered file)
              | None => Fails (NameError "__file__")
              end
         else Completes Skipped.
Proof.
  unfold module_body. cbv zeta.
  pose proof (own_frame_located outer) as Hown.
  rewrite !(State_bool_located isa_globals _ _ _ Hown).
  rewrite !(State_str_located _ _ _ Hown).
  cbn [f_globals flag_truth].
  destruct (name_is_main isa_globals), (has_file isa_globals); reflexivity.
Qed.

(** X7: run as a script (["__name__"] is ["__main__"] and ["__file__"] is
    truthy) the module prints exactly the three lines [interactive: False],
    [module: False], [script: True]. *)
Theorem script_prints_report outer :
  dict_items isa_globals !! "__name__" = Some (VStr "__main__") ->
  (exists v, dict_items isa_globals !! "__file__" = Some v /\ truthy v = true) ->
  module_body outer
  = Completes (Printed ("interactive: False" ++ nl ++ "module: False" ++ nl
                        ++ "script: True")).
Proof.
  intros Hname Hfile. rewrite module_body_by_signals.
  apply name_is_main_spec in Hname. apply has_file_spec in Hfile.
  now rewrite Hname, Hfile.
Qed.

(** X8: the body of the module never raises, whatever its globals and
    the stack below it.  It prints only when run as a script, binds
    [__test__] exactly when it is an imported module (and then
    interpolates the bound ["__file__"]), and does nothing when
    ["__file__"] is absent or falsy. *)
Theorem module_body_never_fails outer :
  exists o,
    module_body outer = Completes o /\
    ((exists text, o = Printed text) <->
     dict_items isa_globals !! "__name__" = Some (VStr "__main__") /\
     exists v, dict_items isa_globals !! "__file__" = Some v /\ truthy v = true) /\
    (forall file, o = Registered file <->
     dict_items isa_globals !! "__name__" <> Some (VStr "__main__") /\
     dict_items isa_globals !! "__file__" = Some file /\ truthy file = true) /\
    (o = Skipped <->
     ~ exists v, dict_items isa_globals !! "__file__" = Some v /\ truthy v = true).
Proof.
  rewrite module_body_by_signals.
  pose proof (name_is_main_spec isa_globals) as Hn.
  pose proof (has_file_spec isa_globals) as Hf.
  destruct (name_is_main isa_globals) eqn:En,
           (has_file isa_globals) eqn:Ef; cbn [andb negb].
  - pose proof (proj1 Hn eq_refl) as Hname. pose proof (proj1 Hf eq_refl) as Hfile.
    eexists. split; [reflexivity|]. split; [|split].
    + split; eauto.
    + intros file. split; [discriminate | intros (Hne & _); contradiction].
    + split; [discriminate | intros Hno; contradiction].
  - assert (Hno : ~ exists v, dict_items isa_globals !! "__file__" = Some v
                               /\ truthy v = true)
      by (intros Hv; apply Hf in Hv; discriminate).
    eexists. split; [reflexivity|]. split; [|split].
    + split; [intros (text & [=]) | intros (_ & Hv); contradiction].
    + intros file. split; [discriminate|].
      intros (_ & E & Ht). exfalso. apply Hno. eauto.
    + split; auto.
  - assert (Hname : dict_items isa_globals !! "__name__" <> Some (VStr "__main__"))
      by (intros Hm; apply Hn in Hm; discriminate).
    destruct (proj1 Hf eq_refl) as (v & Hv & Ht). rewrite Hv.
    eexists. split; [reflexivity|]. split; [|split].
    + split; [intros (text & [=]) | intros (Hm & _); contradiction].
    + intros file. split.
      * intros [= <-]. auto.
      * intros (_ & E & _). congruence.
    + split; [discriminate | intros Hno; exfalso; apply Hno; eauto].
  - assert (Hno : ~ exists v, dict_items isa_globals !! "__file__" = Some v
                               /\ truthy v = true)
      by (intros Hv; apply Hf in Hv; discriminate).
    eexists. split; [reflexivity|]. split; [|split].
    + split; [intros (text & [=]) | intros (_ & Hv); contradiction].
    + intros file. split; [discriminate|].
      intros (_ & E & Ht). exfalso. apply Hno. eauto.
    + split; auto.
Qed.

(** ** Compound expressions *)

Section Valuation.

Variables (st : stack) (rho : flag -> bool).
Hypothesis Hrho : forall f, State_bool isa_globals st f = Ok (rho f).

Definition operand_value (x : operand) : bool :=
  match x with
  | OFlag f => rho f
  | OPlain v => truthy v
  end.

Definition flag_or_bool (x : operand) : Prop :=
  match x with
  | OFlag _ => True
  | OPlain (VBool _) => True
  | OPlain _ => False
  end.

Lemma py_bool_rho x : py_bool isa_globals st x = Ok (operand_value x).
Proof. destruct x; simpl; [apply Hrho | reflexivity]. Qed.

Lemma bitor_rho x y :
  flag_or_bool x -> flag_or_bool y ->
  exists r, bitor isa_globals st x y = Ok r /\ flag_or_bool r /\
            operand_value r = operand_value x || operand_value y.
Proof.
  destruct x as [a|[|u|n|t|l]], y as [b|[|v|n'|t'|l']]; simpl;
    try contradiction; intros _ _;
    unfold State_or, State_ror; cbv zeta;
    rewrite ?State_bool_enter, ?py_bool_enter, ?Hrho; simpl.
  - destruct (rho a) eqn:Ea; simpl; eexists; split; try reflexivity;
      simpl; rewrite ?Ea; auto.
  - destruct (rho a) eqn:Ea; simpl; eexists; split; try reflexivity;
      simpl; rewrite ?Ea; auto.
  - destruct u; simpl; eexists; split; try reflexivity; simpl; auto.
  - eexists; split; try reflexivity; simpl; auto.
Qed.

Lemma bitand_rho x y :
  flag_or_bool x -> flag_or_bool y ->
  exists r, bitand isa_globals st x y = Ok r /\ flag_or_bool r /\
            operand_value r = operand_value x && operand_value y.
Proof.
  destruct x as [a|[|u|n|t|l]], y as [b|[|v|n'|t'|l']]; simpl;
    try contradiction; intros _ _;
    unfold State_and, State_rand; cbv zeta;
    rewrite ?State_bool_enter, ?py_bool_enter, ?Hrho; simpl.
  - destruct (rho a) eqn:Ea; simpl; eexists; split; try reflexivity;
      simpl; rewrite ?Ea; auto.
  - destruct (rho a) eqn:Ea; simpl; eexists; split; try reflexivity;
      simpl; rewrite ?Ea; auto.
  - destruct (rho b) eqn:Eb; simpl; eexists; split; try reflexivity;
      simpl; rewrite ?Eb; auto using andb_true_r, andb_false_r.
  - eexists; split; try reflexivity; simpl; auto.
Qed.

Lemma eval_rho e :
  bool_literals e = true ->
  exists r, eval isa_globals st e = Ok r /\ flag_or_bool r /\
            operand_value r = denote rho e.
Proof.
  induction e as [f|v|e IH|e1 IH1 e2 IH2|e1 IH1 e2 IH2]; simpl; intros Hlit.
  - eexists; split; [reflexivity|]. simpl. auto.
  - destruct v; try discriminate. eexists; split; [reflexivity|]. simpl. auto.
  - destruct (IH Hlit) as (r & -> & _ & Hr). simpl.
    rewrite py_bool_rho. simpl. eexists; split; [reflexivity|].
    simpl. now rewrite Hr.
  - apply andb_true_iff in Hlit as [H1 H2].
    destruct (IH1 H1) as (r1 & -> & Hk1 & Hr1).
    destruct (IH2 H2) as (r2 & -> & Hk2 & Hr2). simpl.
    destruct (bitor_rho r1 r2 Hk1 Hk2) as (r & -> & Hk & Hr).
    eexists; split; [reflexivity|]. now rewrite Hr, Hr1, Hr2.
  - apply andb_true_iff in Hlit as [H1 H2].
    destruct (IH1 H1) as (r1 & -> & Hk1 & Hr1).
    destruct (IH2 H2) as (r2 & -> & Hk2 & Hr2). simpl.
    destruct (bitand_rho r1 r2 Hk1 Hk2) as (r & -> & Hk & Hr).
    eexists; split; [reflexivity|]. now rewrite Hr, Hr1, Hr2.
Qed.

End Valuation.

(** X9: when the flags have the truth values [rho] for the caller, every
    expression built from flags, [True], [False], [not], [|] and [&] has
    the truth value of its propositional reading under [rho]: the
    overloaded operators compose like the connectives, however deeply
    they are nested. *)
Theorem truth_is_propositional st rho e :
  (forall f, State_bool isa_globals st f = Ok (rho f)) ->
  bool_literals e = true ->
  truth isa_globals st e = Ok (denote rho e).
Proof.
  intros Hrho Hlit. unfold truth.
  destruct (eval_rho st rho Hrho e Hlit) as (r & -> & _ & Hr). simpl.
  now rewrite (py_bool_rho st rho Hrho), Hr.
Qed.

(** ** Edges of the operators and of the predicates *)

(** X10: from a stack without a module-level frame [f | x], [f & x] and
    [x & f] raise [AttributeError] for every operand, while [x | f] with a
    plain [x] still answers, [x] when it is truthy and the class [f]
    otherwise: [a or b] never asks for the truth value of its right
    operand. *)
Theorem operators_without_module_frame st f x v :
  get_last_module isa_globals st = None ->
  bitor isa_globals st (OFlag f) x = Raise AttributeError /\
  bitand isa_globals st (OFlag f) x = Raise AttributeError /\
  bitand isa_globals st (OPlain v) (OFlag f) = Raise AttributeError /\
  bitor isa_globals st (OPlain v) (OFlag f)
  = Ok (if truthy v then OPlain v else OFlag f).
Proof.
  intros Hno.
  pose proof (State_bool_unlocated isa_globals st f Hno) as Hf.
  cbn [bitor bitand]. unfold State_or, State_and, State_rand, State_ror.
  cbv zeta. rewrite State_bool_enter, Hf. cbn [py_bool].
  repeat split. simpl. now destruct (truthy v).
Qed.

(** X11: a predicate reads nothing of a scope but its ["__name__"] and
    ["__file__"] bindings: two scopes that agree on both give the same
    result, whatever else they bind and from wherever they are passed. *)
Theorem predicates_read_two_bindings f st st' s s' :
  dict_items s !! "__name__" = dict_items s' !! "__name__" ->
  dict_items s !! "__file__" = dict_items s' !! "__file__" ->
  function_of f st (Some s) = function_of f st' (Some s').
Proof.
  intros Hn Hf. rewrite !function_of_explicit.
  assert (En : name_is_main s = name_is_main s')
    by (unfold name_is_main, get; now rewrite Hn).
  assert (Ef : has_file s = has_file s')
    by (unfold has_file, get; now rewrite Hf).
  destruct f; unfold flag_truth; now rewrite ?En, ?Ef.
Qed.

(** X12: the flags are those of the nearest module-level frame alone:
    the function frames above it and everything below it on the stack,
    such as the script that imported the module, have no part in them. *)
Theorem flags_of_nearest_module inner fr outer f :
  Forall function_frame inner ->
  module_frame fr ->
  State_bool isa_globals (inner ++ fr :: outer)%list f
  = State_bool isa_globals [fr] f.
Proof.
  intros Hin Hfr. apply State_bool_by_locator.
  rewrite (get_last_module_module_frame fr [] Hfr).
  induction Hin as [|g inner Hg Hin IH]; simpl.
  - now apply get_last_module_module_frame.
  - now rewrite get_last_module_function_frame.
Qed.

End Rest.

(** ** The further statements at concrete scopes *)

Module Run.

(** The globals of [isa.py] run as [python isa.py]. *)
Definition script : dict :=
  Dict 4 (<["__name__" := VStr "__main__"]> (<["__file__" := VStr "isa.py"]> ∅)).

(** A function of [isa] called from [app]: its frame has new locals. *)
Definition helper_frame : frame := Frame (Dict 7 ∅) isa_module.

(** [app] once more, with a further binding. *)
Definition importer_more : dict :=
  Dict 5 (<["answer" := VInt 42]> (dict_items importer)).

(** The truth values of the flags in an imported module. *)
Definition imported (f : flag) : bool :=
  match f with
  | MODULE | FILE => true
  | MAIN | INTERACTIVE | SCRIPT => false
  end.

End Run.

Import Run.

(** X1 for [is_module()] called at the top level of [app]. *)
Lemma default_scope_is_located_module_witness :
  get_last_module isa_module importer_stack = Some (Frame importer importer) /\
  function_of isa_module MODULE importer_stack None
  = function_of isa_module MODULE importer_stack (Some importer).
Proof.
  assert (H : get_last_module isa_module importer_stack
              = Some (Frame importer importer)) by (vm_compute; reflexivity).
  split; [exact H|].
  exact (default_scope_is_located_module isa_module importer_stack
           (Frame importer importer) MODULE H).
Defined.

(** X2 for a stack that holds a single function frame. *)
Lemma no_module_frame_raises_witness :
  get_last_module isa_module [helper_frame] = None /\
  function_of isa_module MAIN [helper_frame] None = Raise AttributeError /\
  State_bool isa_module [helper_frame] MAIN = Raise AttributeError /\
  State_str isa_module [helper_frame] MAIN = Raise AttributeError.
Proof.
  assert (H : get_last_module isa_module [helper_frame] = None)
    by (vm_compute; reflexivity).
  split; [exact H|].
  exact (no_module_frame_raises isa_module [helper_frame] MAIN H).
Defined.

(** X4 for a function of [isa] called from the top level of [app]. *)
Lemma function_call_keeps_flags_witness :
  function_frame helper_frame /\
  State_bool isa_module (helper_frame :: importer_stack) MODULE
  = State_bool isa_module importer_stack MODULE /\
  function_of isa_module MODULE (helper_frame :: importer_stack) None
  = function_of isa_module MODULE importer_stack None.
Proof.
  assert (H : function_frame helper_frame) by (vm_compute; discriminate).
  split; [exact H|].
  exact (function_call_keeps_flags isa_module helper_frame importer_stack MODULE H).
Defined.

(** X7 for [python isa.py]. *)
Lemma script_prints_report_witness :
  dict_items script !! "__name__" = Some (VStr "__main__") /\
  (exists v, dict_items script !! "__file__" = Some v /\ truthy v = true) /\
  module_body script []
  = Completes (Printed ("interactive: False" ++ nl ++ "module: False" ++ nl
                        ++ "script: True")).
Proof.
  assert (H1 : dict_items script !! "__name__" = Some (VStr "__main__"))
    by (vm_compute; reflexivity).
  assert (H2 : exists v, dict_items script !! "__file__" = Some v /\ truthy v = true)
    by (exists (VStr "isa.py"); vm_compute; split; reflexivity).
  split; [exact H1|]. split; [exact H2|].
  exact (script_prints_report script [] H1 H2).
Defined.

(** X9 for the doctest [not MAIN & (not SCRIPT) & (not MAIN)] of the
    module, at the top level of [app]. *)
Lemma truth_is_propositional_witness :
  (forall f, State_bool isa_module importer_stack f = Ok (imported f)) /\
  truth isa_module importer_stack
    (ENot (EBitAnd (EBitAnd (EFlag MAIN) (ENot (EFlag SCRIPT)))
                   (ENot (EFlag MAIN))))
  = Ok true.
Proof.
  assert (H : forall f, State_bool isa_module importer_stack f = Ok (imported f))
    by (intros []; vm_compute; reflexivity).
  split; [exact H|].
  exact (truth_is_propositional isa_module importer_stack imported
           (ENot (EBitAnd (EBitAnd (EFlag MAIN) (ENot (EFlag SCRIPT)))
                          (ENot (EFlag MAIN))))
           H eq_refl).
Defined.

(** X10 for [MAIN] and [True] on the empty stack. *)
Lemma operators_without_module_frame_witness :
  get_last_module isa_module [] = None /\
  bitor isa_module [] (OFlag MAIN) (OPlain (VBool true)) = Raise AttributeError /\
  bitand isa_module [] (OFlag MAIN) (OPlain (VBool true)) = Raise AttributeError /\
  bitand isa_module [] (OPlain (VBool true)) (OFlag MAIN) = Raise AttributeError /\
  bitor isa_module [] (OPlain (VBool true)) (OFlag MAIN) = Ok (OPlain (VBool true)).
Proof.
  assert (H : get_last_module isa_module [] = None) by (vm_compute; reflexivity).
  split; [exact H|].
  exact (operators_without_module_frame isa_module [] MAIN
           (OPlain (VBool true)) (VBool true) H).
Defined.

(** X11 for [app] and [app] with one more binding. *)
Lemma predicates_read_two_bindings_witness :
  dict_items importer !! "__name__" = dict_items importer_more !! "__name__" /\
  dict_items importer !! "__file__" = dict_items importer_more !! "__file__" /\
  function_of isa_module MODULE [] (Some importer)
  = function_of isa_module MODULE importer_stack (Some importer_more).
Proof.
  assert (H1 : dict_items importer !! "__name__"
               = dict_items importer_more !! "__name__")
    by (vm_compute; reflexivity).
  assert (H2 : dict_items importer !! "__file__"
               = dict_items importer_more !! "__file__")
    by (vm_compute; reflexivity).
  split; [exact H1|]. split; [exact H2|].
  exact (predicates_read_two_bindings isa_module MODULE [] importer_stack
           importer importer_more H1 H2).
Defined.

(** X12 for a function of [isa] called from [app], itself imported by
    the script. *)
Lemma flags_of_nearest_module_witness :
  Forall function_frame [helper_frame] /\
  module_frame (Frame importer importer) /\
  State_bool isa_module
    ([helper_frame] ++ Frame importer importer :: [Frame script script])%list SCRIPT
  = State_bool isa_module [Frame importer importer] SCRIPT.
Proof.
  assert (H1 : Forall function_frame [helper_frame])
    by (repeat constructor; vm_compute; discriminate).
  assert (H2 : module_frame (Frame importer importer)) by reflexivity.
  split; [exact H1|]. split; [exact H2|].
  exact (flags_of_nearest_module isa_module [helper_frame]
           (Frame importer importer) [Frame script script] SCRIPT H1 H2).
Defined.
